(** * alice-skill: the webhook dispatcher and the batched persistence worker

    A shallow embedding of [cmd/skill/app.go] and of the [store] package
    interface it depends on.  The handler [webhook] and the background loop
    [flushMessages] are written in a state monad over a [World] that holds
    the store behind the [store.Store] interface and the ordered trace of the
    store calls and channel sends performed so far. *)

From Stdlib Require Import String Ascii ZArith List Bool Lia DecimalString.
From ExtLib Require Import Structures.Monad Structures.MonadState.
From ExtLib Require Import Data.Monads.StateMonad.
Import ListNotations.
Import MonadNotation.
Local Open Scope string_scope.
Local Open Scope Z_scope.
Local Open Scope monad_scope.

(** ** Go's [error] values and [errors.Is] *)

(** An error value.  [errConflictValue] is the one value held by the package
    variable [store.ErrConflict]; [errorsNew] stands for every other value
    made by [errors.New] (a different pointer, even with the same text);
    [wrapError] is an error that wraps another one ([fmt.Errorf] with
    [%w]), which [errors.Is] looks through. *)
Inductive errval : Type :=
| errConflictValue : errval
| errorsNew (text : string) : errval
| wrapError (msg : string) (inner : errval) : errval.

(** The Go interface type [error]; [None] is [nil]. *)
Definition error : Type := option errval.

Fixpoint errval_eqb (a b : errval) : bool :=
  match a, b with
  | errConflictValue, errConflictValue => true
  | errorsNew s, errorsNew t => String.eqb s t
  | wrapError m x, wrapError n y => String.eqb m n && errval_eqb x y
  | _, _ => false
  end.

(** The unwrap loop of [errors.Is] on a non-nil error. *)
Fixpoint errors_is (e target : errval) : bool :=
  errval_eqb e target ||
  match e with
  | wrapError _ inner => errors_is inner target
  | _ => false
  end.

(** [errors.Is(err, target)]. *)
Definition errors_Is (err target : error) : bool :=
  match err, target with
  | None, None => true
  | Some e, Some t => errors_is e t
  | _, _ => false
  end.

(** ** Go's [time] package, as far as the handler uses it *)

Class GoTime : Type := {
  Time : Type;
  Location : Type;
  (** [time.LoadLocation(name)]: a location, or an error. *)
  LoadLocation : string -> Location + errval;
  (** [t.In(loc)]. *)
  time_In : Time -> Location -> Time;
  (** [t.Clock()]: hour, minute, second. *)
  time_Clock : Time -> Z * Z * Z;
  (** [t.String()], which [%s] prints. *)
  time_String : Time -> string
}.

(** [fmt.Sprintf("%d", n)] for an [int]. *)
Definition fmt_d (n : Z) : string := NilZero.string_of_int (Z.to_int n).

(** [strings.HasPrefix(s, prefix)]: bytewise. *)
Definition HasPrefix (s pre : string) : bool := String.prefix pre s.

(** [len(xs)] as a Go [int]. *)
Definition len {A : Type} (xs : list A) : Z := Z.of_nat (length xs).

(** [xs[i]] on a slice: [None] is the run-time panic "index out of range",
    raised for a negative index and for an index not below [len(xs)]. *)
Definition index {A : Type} (xs : list A) (i : Z) : option A :=
  if i <? 0 then None else nth_error xs (Z.to_nat i).

(** ** Package [store] *)

Module store.
Section WithTime.
Context {T : GoTime}.

(** [store.Message]. *)
Record Message : Type := {
  ID : Z;
  Sender : string;
  Recepient : string;
  Time_ : Time;
  Payload : string
}.

(** [store.ErrConflict]. *)
Definition ErrConflict : error := Some errConflictValue.

(** The interface [store.Store].  An implementation has a state [S]; each
    method takes the state, returns Go's result tuple and the state after
    the call.  [GetMessage] returns a pointer, [None] being [nil].
    [SaveMessages] reads the slice it is given and does not write to it. *)
Class Store (S : Type) : Type := {
  FindRecipient : S -> string -> (string * error) * S;
  ListMessages : S -> string -> (list Message * error) * S;
  GetMessage : S -> Z -> (option Message * error) * S;
  SaveMessages : S -> list Message -> error * S;
  RegisterUser : S -> string -> string -> error * S
}.
End WithTime.
End store.

(** ** Package [models] *)

Module models.
(** Modelled from the spec: the package [internal/models] is not among the
    sources; section 6 gives the request as
    [{ request: { type, command }, session: { new, user: { user_id } },
    version, timezone? }] and the response as
    [{ response: { text }, version }].  The handler reads
    [req.Request.Type], [req.Request.Command], [req.Session.New],
    [req.Session.User.UserID] and [req.Timezone]. *)
Record SimpleUtterance : Type := { Type_ : string; Command : string }.

Record User : Type := { UserID : string }.

Record Session : Type := { New : bool; User_ : User }.

Record Request : Type := {
  Timezone : string;
  Request_ : SimpleUtterance;
  Session_ : Session;
  Version : string
}.

Record ResponsePayload : Type := { Text : string }.

Record Response : Type := {
  Response_ : ResponsePayload;
  RespVersion : string
}.

(** Modelled from the spec: the constant [models.TypeSimpleUtterance], the
    single supported type tag; the test fixture sends the tag
    SimpleUtterance. *)
Definition TypeSimpleUtterance : string := "SimpleUtterance".
End models.

(** ** Package [parser] *)

(** The three parsing functions the handler calls; the package is not among
    the sources and the handler only passes their results on. *)
Class Parser : Type := {
  ParseSendCommand : string -> string * string;
  ParseReadCommand : string -> Z;
  ParseRegisterCommand : string -> string
}.

(** ** [net/http] as seen by the handler *)

(** The part of [*http.Request] the handler reads. *)
Record HTTPRequest : Type := { Method : string; Body : string }.

Definition MethodPost : string := "POST".
Definition StatusOK : Z := 200.
Definition StatusBadRequest : Z := 400.
Definition StatusMethodNotAllowed : Z := 405.
Definition StatusUnprocessableEntity : Z := 422.
Definition StatusInternalServerError : Z := 500.

(** What the handler leaves on the [http.ResponseWriter]: the status code
    and, when a reply was encoded, the reply ([Content-Type] is then
    [application/json] and the status the implicit 200).  [Panicked] is a
    run-time panic inside the handler: nothing was written. *)
Inductive Outcome : Type :=
| Responded (code : Z) (body : option models.Response)
| Panicked.

Definition statusOf (o : Outcome) : option Z :=
  match o with Responded c _ => Some c | Panicked => None end.

Definition textOf (o : Outcome) : option string :=
  match o with
  | Responded _ (Some r) => Some (models.Text (models.Response_ r))
  | _ => None
  end.

(** ** [cmd/skill/app.go] *)

Section App.
Context {T : GoTime} {P : Parser} {S : Type} {St : store.Store S}.

(** [json.NewDecoder(r.Body).Decode(&req)]: the decoded request, or the
    decoder's error. *)
Variable json_Decode : string -> models.Request + errval.

(** What a run does to the world outside the handler, in order: a call of a
    [store.Store] method with its arguments, or a send on [a.msgChan]. *)
Inductive Event : Type :=
| CallFindRecipient (username : string)
| CallListMessages (userID : string)
| CallGetMessage (id : Z)
| CallSaveMessages (messages : list store.Message)
| CallRegisterUser (userID username : string)
| ChanSend (msg : store.Message).

(** The world a run acts on: the store behind [a.store], the reading that
    [time.Now()] gives during the run, and the events so far.  A send on the
    buffered channel [a.msgChan] (capacity 1024) is recorded when it
    completes. *)
Record World : Type := {
  a_store : S;
  now : Time;
  trace : list Event
}.

(** A call of a store method: run it on the store, record the event. *)
Definition call {A : Type} (ev : Event) (method : S -> A * S) : state World A :=
  w <- get ;;
  let '(res, s') := method (a_store w) in
  put {| a_store := s'; now := now w; trace := (trace w ++ [ev])%list |} ;;
  ret res.

(** [a.msgChan <- msg]. *)
Definition chan_send (msg : store.Message) : state World unit :=
  w <- get ;;
  put {| a_store := a_store w; now := now w;
         trace := (trace w ++ [ChanSend msg])%list |}.

(** [time.Now()]. *)
Definition time_Now : state World Time := w <- get ;; ret (now w).

(** [w.WriteHeader(code); return]. *)
Definition writeHeader (code : Z) : state World Outcome :=
  ret (Responded code None).

(** The tail of the handler: fill [models.Response] with the text and
    version 1.0, and encode it; the status is the implicit 200. *)
Definition encodeResponse (text : string) : state World Outcome :=
  ret (Responded StatusOK
         (Some {| models.Response_ := {| models.Text := text |};
                  models.RespVersion := "1.0" |})).

(** [func (a *app) webhook(w http.ResponseWriter, r *http.Request)]. *)
Definition webhook (r : HTTPRequest) : state World Outcome :=
  if negb (String.eqb (Method r) MethodPost) then
    writeHeader StatusMethodNotAllowed
  else
  match json_Decode (Body r) with
  | inr _ => writeHeader StatusInternalServerError
  | inl req =>
  if negb (String.eqb (models.Type_ (models.Request_ req))
                      models.TypeSimpleUtterance) then
    writeHeader StatusUnprocessableEntity
  else
  let command := models.Command (models.Request_ req) in
  let userID := models.UserID (models.User_ (models.Session_ req)) in
  if HasPrefix command "Отправь" then
    let '(username, message) := ParseSendCommand command in
    '(recipientID, err) <-
      call (CallFindRecipient username)
           (fun s => store.FindRecipient s username) ;;
    match err with
    | Some _ => writeHeader StatusInternalServerError
    | None =>
        t <- time_Now ;;
        chan_send {| store.ID := 0;
                     store.Sender := userID;
                     store.Recepient := recipientID;
                     store.Time_ := t;
                     store.Payload := message |} ;;
        encodeResponse "Сообщение успешно отправлено"
    end
  else if HasPrefix command "Прочитай" then
    let messageIndex := ParseReadCommand command in
    '(messages, err) <-
      call (CallListMessages userID)
           (fun s => store.ListMessages s userID) ;;
    match err with
    | Some _ => writeHeader StatusInternalServerError
    | None =>
        if len messages <? messageIndex then
          encodeResponse "Такого сообщения не существует."
        else
          match index messages messageIndex with
          | None => ret Panicked
          | Some m =>
              let messageID := store.ID m in
              '(message, err) <-
                call (CallGetMessage messageID)
                     (fun s => store.GetMessage s messageID) ;;
              match err with
              | Some _ => writeHeader StatusInternalServerError
              | None =>
                  match message with
                  | None => ret Panicked
                  | Some message =>
                      encodeResponse
                        ("Сообщение от " ++ store.Sender message
                         ++ ", отправлено " ++ time_String (store.Time_ message)
                         ++ ": " ++ store.Payload message)
                  end
              end
          end
    end
  else if HasPrefix command "Зарегистрируй" then
    let username := ParseRegisterCommand command in
    err <- call (CallRegisterUser userID username)
                (fun s => store.RegisterUser s userID username) ;;
    if match err with Some _ => true | None => false end
       && negb (errors_Is err store.ErrConflict) then
      writeHeader StatusInternalServerError
    else
      let text := "Вы успешно зарегистрированы под именем " ++ username in
      let text :=
        if errors_Is err store.ErrConflict then
          "Извините, такое имя уже занято. Попробуйте другое."
        else text in
      encodeResponse text
  else
    '(messages, err) <-
      call (CallListMessages userID)
           (fun s => store.ListMessages s userID) ;;
    match err with
    | Some _ => writeHeader StatusInternalServerError
    | None =>
        let text := "Для вас нет новых сообщений." in
        let text :=
          if len messages >? 0 then
            "Для вас " ++ fmt_d (len messages) ++ " новых сообщений."
          else text in
        if models.New (models.Session_ req) then
          match LoadLocation (models.Timezone req) with
          | inr _ => writeHeader StatusBadRequest
          | inl tz =>
              t <- time_Now ;;
              let '(hour, minute, _) := time_Clock (time_In t tz) in
              encodeResponse
                ("Точное время " ++ fmt_d hour ++ " часов, "
                 ++ fmt_d minute ++ " минут. " ++ text)
          end
        else encodeResponse text
    end
  end.

(** What one pass of the [select] in [flushMessages] took: a message from
    [a.msgChan], or a firing of the ticker. *)
Inductive SelectCase : Type :=
| RecvMsg (msg : store.Message)
| TickerC.

(** One pass of the [for { select { ... } }] loop of [flushMessages], on the
    loop's variable [messages]. *)
Definition flushMessages_pass (messages : list store.Message) (c : SelectCase)
  : state World (list store.Message) :=
  match c with
  | RecvMsg msg => ret (messages ++ [msg])%list
  | TickerC =>
      if len messages =? 0 then ret messages
      else
        err <- call (CallSaveMessages messages)
                    (fun s => store.SaveMessages s messages) ;;
        match err with
        | Some _ => ret messages
        | None => ret []
        end
  end.

(** The loop over the passes taken so far. *)
Fixpoint flushMessages_loop (cases : list SelectCase)
  (messages : list store.Message) : state World (list store.Message) :=
  match cases with
  | [] => ret messages
  | c :: rest =>
      messages' <- flushMessages_pass messages c ;;
      flushMessages_loop rest messages'
  end.

(** [func (a *app) flushMessages()]: [var messages []store.Message] is nil
    at the start; the loop never ends, the result is the batch after the
    given passes. *)
Definition flushMessages (cases : list SelectCase)
  : state World (list store.Message) :=
  flushMessages_loop cases [].

(** The request passes the three gates at the head of [webhook]: the method
    is POST, the body decodes to [req], and the type tag is the supported
    one. *)
Definition accepted (r : HTTPRequest) (req : models.Request) : Prop :=
  Method r = MethodPost /\
  json_Decode (Body r) = inl req /\
  models.Type_ (models.Request_ req) = models.TypeSimpleUtterance.

(** The command text of a request and the caller's identifier. *)
Definition commandOf (req : models.Request) : string :=
  models.Command (models.Request_ req).

Definition callerOf (req : models.Request) : string :=
  models.UserID (models.User_ (models.Session_ req)).

(** Whether the command begins with one of the three keywords of the
    [switch]; when it does not, the [default] branch runs. *)
Definition matchesKeyword (command : string) : bool :=
  HasPrefix command "Отправь" || HasPrefix command "Прочитай"
  || HasPrefix command "Зарегистрируй".

(** The same request with another first-turn flag and timezone. *)
Definition withSession (new : bool) (timezone : string)
  (req : models.Request) : models.Request :=
  {| models.Timezone := timezone;
     models.Request_ := models.Request_ req;
     models.Session_ :=
       {| models.New := new;
          models.User_ := models.User_ (models.Session_ req) |};
     models.Version := models.Version req |}.

(** The text of the [default] branch before any greeting. *)
Definition countText (messages : list store.Message) : string :=
  if len messages >? 0 then
    "Для вас " ++ fmt_d (len messages) ++ " новых сообщений."
  else "Для вас нет новых сообщений.".

(** The greeting that the first turn puts before the text. *)
Definition greeting (hour minute : Z) (text : string) : string :=
  "Точное время " ++ fmt_d hour ++ " часов, "
  ++ fmt_d minute ++ " минут. " ++ text.

(** Whether an event is a call of [SaveMessages]. *)
Definition isSave (ev : Event) : bool :=
  match ev with CallSaveMessages _ => true | _ => false end.

(** The reply body that [encodeResponse] writes. *)
Definition replyWith (text : string) : Outcome :=
  Responded StatusOK
    (Some {| models.Response_ := {| models.Text := text |};
             models.RespVersion := "1.0" |}).

(** The world after more events and a new store state. *)
Definition after (w : World) (s : S) (evs : list Event) : World :=
  {| a_store := s; now := now w; trace := (trace w ++ evs)%list |}.

(** The messages that the events of a run sent on [a.msgChan], in order. *)
Definition sent (evs : list Event) : list store.Message :=
  flat_map (fun ev => match ev with ChanSend m => [m] | _ => [] end) evs.

(** The messages that the passes of the loop took from the channel, in
    order, and the number of firings among the passes. *)
Definition received (cases : list SelectCase) : list store.Message :=
  flat_map (fun c => match c with RecvMsg m => [m] | TickerC => [] end) cases.

Definition firings (cases : list SelectCase) : nat :=
  length (filter (fun c => match c with TickerC => true | _ => false end)
                 cases).

(** The batches that the firings among the passes wrote with success: the
    arguments of the [SaveMessages] calls that returned a nil error, in
    order. *)
Fixpoint savedBatches (cases : list SelectCase)
  (messages : list store.Message) (w : World) : list (list store.Message) :=
  match cases with
  | [] => []
  | c :: rest =>
      let here :=
        match c with
        | RecvMsg _ => []
        | TickerC =>
            if len messages =? 0 then []
            else match fst (store.SaveMessages (a_store w) messages) with
                 | Some _ => []
                 | None => [messages]
                 end
        end in
      let next := runState (flushMessages_pass messages c) w in
      (here ++ savedBatches rest (fst next) (snd next))%list
  end.

(** What a client can see of an outcome that is not a panic: a reply body
    only with status 200 and version 1.0, no body with one of the four
    error statuses. *)
Definition wellFormed (o : Outcome) : Prop :=
  match o with
  | Panicked => True
  | Responded code (Some reply) =>
      code = StatusOK /\ models.RespVersion reply = "1.0"
  | Responded code None =>
      code = StatusBadRequest \/ code = StatusMethodNotAllowed \/
      code = StatusUnprocessableEntity \/ code = StatusInternalServerError
  end.

End App.

(** ** A small world to run the code in

    A clock with fixed offsets, a one-digit parser and an in-memory store:
    enough to evaluate [webhook] and [flushMessages] on concrete requests. *)

Module demo.

(** Seconds since midnight UTC and the offset of the location in seconds. *)
#[export] Instance clockTime : GoTime := {|
  Time := Z * Z;
  Location := Z;
  LoadLocation := fun name =>
    if String.eqb name "" then inl 0
    else if String.eqb name "UTC" then inl 0
    else if String.eqb name "Europe/Moscow" then inl 10800
    else inr (errorsNew "unknown time zone");
  time_In := fun t loc => (fst t, loc);
  time_Clock := fun t =>
    let s := fst t + snd t in
    ((s / 3600) mod 24, (s / 60) mod 60, s mod 60);
  time_String := fun t => fmt_d (fst t)
|}.

(** The last byte of a string, if any. *)
Fixpoint lastByte (s : string) : option ascii :=
  match s with
  | EmptyString => None
  | String c EmptyString => Some c
  | String _ rest => lastByte rest
  end.

(** Reads the index from a final decimal digit; sends to [vasya]; registers
    the name [petya]. *)
#[export] Instance digitParser : Parser := {|
  ParseSendCommand := fun _ => ("vasya", "hello");
  ParseReadCommand := fun command =>
    match lastByte command with
    | Some c =>
        let n := Z.of_nat (nat_of_ascii c) - 48 in
        if (0 <=? n) && (n <=? 9) then n else 0
    | None => 0
    end;
  ParseRegisterCommand := fun _ => "petya"
|}.

(** The state of the in-memory store: the registered names with their
    identifiers, the stored messages, and whether the store is reachable. *)
Record memStore : Type := {
  users : list (string * string);
  inbox : list store.Message;
  down : bool
}.

Definition storeDown : errval := errorsNew "store is down".

Fixpoint lookupUser (name : string) (us : list (string * string))
  : option string :=
  match us with
  | [] => None
  | (n, id) :: rest => if String.eqb n name then Some id else lookupUser name rest
  end.

#[export] Instance memStoreImpl : store.Store memStore := {|
  store.FindRecipient := fun s username =>
    if down s then (("", Some storeDown), s)
    else match lookupUser username (users s) with
         | Some id => ((id, None), s)
         | None => (("", Some (errorsNew "no such user")), s)
         end;
  store.ListMessages := fun s userID =>
    if down s then (([], Some storeDown), s)
    else ((filter (fun m => String.eqb (store.Recepient m) userID) (inbox s),
           None), s);
  store.GetMessage := fun s id =>
    if down s then ((None, Some storeDown), s)
    else match find (fun m => store.ID m =? id) (inbox s) with
         | Some m => ((Some m, None), s)
         | None => ((None, Some (errorsNew "no such message")), s)
         end;
  store.SaveMessages := fun s messages =>
    if down s then (Some storeDown, s)
    else (None, {| users := users s;
                   inbox := (inbox s ++ messages)%list;
                   down := false |});
  store.RegisterUser := fun s userID username =>
    if down s then (Some storeDown, s)
    else match lookupUser username (users s) with
         | Some _ =>
             (Some (wrapError "register user" errConflictValue), s)
         | None =>
             (None, {| users := (username, userID) :: users s;
                       inbox := inbox s;
                       down := false |})
         end
|}.

(** The request that a body stands for. *)
Definition request (tag command : string) (first : bool) (timezone : string)
  : models.Request :=
  {| models.Timezone := timezone;
     models.Request_ :=
       {| models.Type_ := tag; models.Command := command |};
     models.Session_ :=
       {| models.New := first;
          models.User_ := {| models.UserID := "u1" |} |};
     models.Version := "1.0" |}.

(** The timezone a zone letter stands for: [M] Moscow, [U] UTC, [E] the
    empty name; any other letter is a name that does not load. *)
Definition zoneName (zone : ascii) : string :=
  if Ascii.eqb zone "M" then "Europe/Moscow"
  else if Ascii.eqb zone "U" then "UTC"
  else if Ascii.eqb zone "E" then ""
  else "Mars/Phobos".

(** A two-letter header and the command.  The first letter is [1] for the
    first turn of a session, [0] for a later turn, and anything else for a
    request of an unsupported type; the second letter is the zone.  The
    caller is always [u1]; a shorter body does not decode. *)
Definition decode (body : string) : models.Request + errval :=
  match body with
  | String first (String zone command) =>
      let tag :=
        if Ascii.eqb first "1" || Ascii.eqb first "0"
        then "SimpleUtterance" else "idunno" in
      inl (request tag command (Ascii.eqb first "1") (zoneName zone))
  | _ => inr (errorsNew "unexpected end of JSON input")
  end.

Definition hello : store.Message :=
  {| store.ID := 7; store.Sender := "u2"; store.Recepient := "u1";
     store.Time_ := (36000, 0); store.Payload := "Hello!" |}.

Definition worldWith (users : list (string * string))
  (inbox : list store.Message) (down : bool) : World :=
  {| a_store := {| users := users; inbox := inbox; down := down |};
     now := (45296, 0);
     trace := [] |}.

Definition world (inbox : list store.Message) (down : bool) : World :=
  worldWith [("vasya", "u2")] inbox down.

Definition post (body : string) : HTTPRequest :=
  {| Method := "POST"; Body := body |}.

Definition serve (body : string) (w : World) : Outcome * World :=
  runState (webhook decode (post body)) w.

Definition note (sender text : string) : store.Message :=
  {| store.ID := 0; store.Sender := sender; store.Recepient := "u1";
     store.Time_ := (45296, 0); store.Payload := text |}.

(** A store in the manner of the generated mock: every method returns the
    result set for it and records nothing. *)
Record mockStore : Type := {
  findReturn : string * error;
  listReturn : list store.Message * error;
  getReturn : option store.Message * error;
  saveReturn : error;
  registerReturn : error
}.

#[export] Instance mockStoreImpl : store.Store mockStore := {|
  store.FindRecipient := fun s _ => (findReturn s, s);
  store.ListMessages := fun s _ => (listReturn s, s);
  store.GetMessage := fun s _ => (getReturn s, s);
  store.SaveMessages := fun s _ => (saveReturn s, s);
  store.RegisterUser := fun s _ _ => (registerReturn s, s)
|}.

Definition mock (listed : list store.Message * error)
  (got : option store.Message * error) : World :=
  {| a_store := {| findReturn := ("u2", None);
                   listReturn := listed;
                   getReturn := got;
                   saveReturn := None;
                   registerReturn := None |};
     now := (45296, 0);
     trace := [] |}.

(** A parser that takes every read for the index before the first. *)
Definition minusParser : Parser := {|
  ParseSendCommand := fun _ => ("vasya", "hello");
  ParseReadCommand := fun _ => -1;
  ParseRegisterCommand := fun _ => "petya"
|}.

(** A store that is never reachable. *)
Inductive deadStore : Type := unreachable.

#[export] Instance deadStoreImpl : store.Store deadStore := {|
  store.FindRecipient := fun s _ => (("", Some storeDown), s);
  store.ListMessages := fun s _ => (([], Some storeDown), s);
  store.GetMessage := fun s _ => ((None, Some storeDown), s);
  store.SaveMessages := fun s _ => (Some storeDown, s);
  store.RegisterUser := fun s _ _ => (Some storeDown, s)
|}.

Definition deadWorld : World :=
  {| a_store := unreachable; now := (45296, 0); trace := [] |}.

End demo.

(** * Properties *)

(** ** The three command keywords exclude one another *)

(** Two keywords that differ in their second byte cannot both begin the
    same string. *)
Lemma prefix_second_byte (a b a' b' : ascii) (p q s : string) :
  b <> b' ->
  String.prefix (String a (String b p)) s = true ->
  String.prefix (String a' (String b' q)) s = false.
Proof.
  intros Hne H.
  destruct s as [|x [|y s]]; simpl in *; try discriminate.
  - destruct (ascii_dec a x); discriminate.
  - destruct (ascii_dec a x) as [->|]; [|discriminate].
    destruct (ascii_dec b y) as [->|]; [|discriminate].
    destruct (ascii_dec a' x); [|reflexivity].
    destruct (ascii_dec b' y) as [->|]; [|reflexivity].
    contradiction Hne; reflexivity.
Qed.

Lemma read_not_send (c : string) :
  HasPrefix c "Прочитай" = true -> HasPrefix c "Отправь" = false.
Proof.
  unfold HasPrefix. apply prefix_second_byte. discriminate.
Qed.

Lemma register_not_send (c : string) :
  HasPrefix c "Зарегистрируй" = true -> HasPrefix c "Отправь" = false.
Proof.
  unfold HasPrefix. apply prefix_second_byte. discriminate.
Qed.

Lemma register_not_read (c : string) :
  HasPrefix c "Зарегистрируй" = true -> HasPrefix c "Прочитай" = false.
Proof.
  unfold HasPrefix. apply prefix_second_byte. discriminate.
Qed.

Section Handler.
Context {T : GoTime} {P : Parser} {S : Type} {St : store.Store S}.
Variable json_Decode : string -> models.Request + errval.

(** Unfolding the handler, before its name is taken for the handler at
    this decoder. *)
Ltac unfold_webhook := unfold webhook.

Abbreviation webhook := (webhook json_Decode).
Abbreviation accepted := (accepted json_Decode).
Abbreviation World := (@World T S).

(** Running a sequence: the first part, then the rest on its result. *)
Lemma run_bind {A B : Type} (c : state World A) (k : A -> state World B)
  (w : World) :
  runState (x <- c ;; k x) w =
  runState (k (fst (runState c w))) (snd (runState c w)).
Proof.
  cbn. destruct (runState c w); reflexivity.
Qed.

(** Running a store call: the method's result, the store it leaves and one
    more event. *)
Lemma run_call {A : Type} (ev : Event) (method : S -> A * S) (w : World) :
  runState (call ev method) w =
  (fst (method (a_store w)), after w (snd (method (a_store w))) [ev]).
Proof.
  unfold call, after. cbn. destruct (method (a_store w)); reflexivity.
Qed.

(** Past the three gates the handler is at its [switch]. *)
Ltac enter_handler Hacc :=
  destruct Hacc as (Hmethod & Hdecode & Htype);
  unfold_webhook;
  rewrite Hmethod, Hdecode, Htype;
  unfold MethodPost; rewrite !String.eqb_refl; cbv beta iota delta [negb].

(** C6. Register path: a conflict reported by [RegisterUser] (an error for
    which [errors.Is(err, store.ErrConflict)] holds) gives the fixed
    name-taken text with status 200; any other error gives status 500 with
    no body; success gives the confirmation naming the chosen username. *)
Theorem register_discriminates_conflict
  (r : HTTPRequest) (req : models.Request) (w : World) :
  accepted r req ->
  HasPrefix (commandOf req) "Зарегистрируй" = true ->
  let username := ParseRegisterCommand (commandOf req) in
  let err := fst (store.RegisterUser (a_store w) (callerOf req) username) in
  let out := fst (runState (webhook r) w) in
  (errors_Is err store.ErrConflict = true ->
   out = replyWith "Извините, такое имя уже занято. Попробуйте другое.") /\
  (err <> None -> errors_Is err store.ErrConflict = false ->
   out = Responded StatusInternalServerError None) /\
  (err = None ->
   out = replyWith ("Вы успешно зарегистрированы под именем " ++ username)).
Proof.
  intros Hacc Hreg. cbv zeta.
  enter_handler Hacc.
  fold (commandOf req) (callerOf req).
  rewrite (register_not_send _ Hreg), (register_not_read _ Hreg), Hreg.
  rewrite run_bind, run_call. cbn [fst snd].
  destruct (store.RegisterUser (a_store w) (callerOf req)
              (ParseRegisterCommand (commandOf req))) as [err s'].
  cbn [fst snd]. destruct err as [e|]; cbn.
  - destruct (errors_is e errConflictValue); cbn;
      repeat split; intros; congruence.
  - repeat split; intros; congruence.
Qed.

(** C5. Send path: when [FindRecipient] resolves the parsed username, the
    handler sends exactly one message on the channel, with the caller as
    sender, the resolved identifier as recipient and the parsed text as
    payload, and replies with the fixed confirmation; when the resolution
    fails, the status is 500 and the only event is the [FindRecipient] call,
    so nothing is sent. *)
Theorem send_enqueues_one_resolved_message
  (r : HTTPRequest) (req : models.Request) (w : World) :
  accepted r req ->
  HasPrefix (commandOf req) "Отправь" = true ->
  let username := fst (ParseSendCommand (commandOf req)) in
  let message := snd (ParseSendCommand (commandOf req)) in
  let found := fst (store.FindRecipient (a_store w) username) in
  let run := runState (webhook r) w in
  (snd found = None ->
   fst run = replyWith "Сообщение успешно отправлено" /\
   trace (snd run) =
     (trace w ++
      [CallFindRecipient username;
       ChanSend {| store.ID := 0;
                   store.Sender := callerOf req;
                   store.Recepient := fst found;
                   store.Time_ := now w;
                   store.Payload := message |}])%list) /\
  (snd found <> None ->
   fst run = Responded StatusInternalServerError None /\
   trace (snd run) = (trace w ++ [CallFindRecipient username])%list).
Proof.
  intros Hacc Hsend. cbv zeta.
  enter_handler Hacc.
  fold (commandOf req) (callerOf req). rewrite Hsend.
  destruct (ParseSendCommand (commandOf req)) as [username message].
  cbn [fst snd].
  rewrite run_bind, run_call. cbn [fst snd].
  destruct (store.FindRecipient (a_store w) username)
    as [[recipientID err] s'].
  cbn [fst snd]. destruct err as [e|].
  - split; [discriminate|]. intros _. split; reflexivity.
  - split; [|congruence]. intros _.
    cbn. rewrite <- app_assoc. split; reflexivity.
Qed.

(** The [default] branch is taken exactly when no keyword matches. *)
Lemma no_keyword (c : string) :
  matchesKeyword c = false ->
  HasPrefix c "Отправь" = false /\ HasPrefix c "Прочитай" = false
  /\ HasPrefix c "Зарегистрируй" = false.
Proof.
  unfold matchesKeyword. intros H.
  apply orb_false_elim in H as [H H3].
  apply orb_false_elim in H as [H1 H2]. auto.
Qed.

(** Indexing a slice at its length is out of range. *)
Lemma index_at_len {A : Type} (xs : list A) : index xs (len xs) = None.
Proof.
  unfold index, len.
  destruct (Z.ltb_spec (Z.of_nat (length xs)) 0) as [|_]; [reflexivity|].
  rewrite Nat2Z.id. apply nth_error_None. apply Nat.le_refl.
Qed.

(** Indexing succeeds exactly below the length and from zero on. *)
Lemma index_in_range {A : Type} (xs : list A) (i : Z) :
  0 <= i < len xs -> exists x, index xs i = Some x.
Proof.
  unfold index, len. intros [Hlo Hhi].
  destruct (Z.ltb_spec i 0) as [|_]; [lia|].
  destruct (nth_error xs (Z.to_nat i)) as [x|] eqn:E; [eauto|].
  apply nth_error_None in E. lia.
Qed.

(** C1. Read path at the boundary: when the listing holds K messages and
    the requested index is K itself, the test [len(messages) < messageIndex]
    is false, the handler indexes [messages[K]] and panics; no reply is
    written. *)
Theorem read_index_equal_to_length_panics
  (r : HTTPRequest) (req : models.Request) (w : World) :
  accepted r req ->
  HasPrefix (commandOf req) "Прочитай" = true ->
  let listed := fst (store.ListMessages (a_store w) (callerOf req)) in
  snd listed = None ->
  ParseReadCommand (commandOf req) = len (fst listed) ->
  fst (runState (webhook r) w) = Panicked.
Proof.
  intros Hacc Hread. cbv zeta. intros Hok Hidx.
  enter_handler Hacc.
  fold (commandOf req) (callerOf req).
  rewrite (read_not_send _ Hread), Hread.
  rewrite run_bind, run_call. cbn [fst snd].
  destruct (store.ListMessages (a_store w) (callerOf req))
    as [[messages err] s'].
  cbn [fst snd] in *. subst err. rewrite Hidx.
  rewrite Z.ltb_irrefl, index_at_len. reflexivity.
Qed.

(** The read path beyond the boundary: an index above the length gives the
    fixed no-such-message text. *)
Lemma read_index_above_length
  (r : HTTPRequest) (req : models.Request) (w : World) :
  accepted r req ->
  HasPrefix (commandOf req) "Прочитай" = true ->
  let listed := fst (store.ListMessages (a_store w) (callerOf req)) in
  snd listed = None ->
  len (fst listed) < ParseReadCommand (commandOf req) ->
  fst (runState (webhook r) w) = replyWith "Такого сообщения не существует.".
Proof.
  intros Hacc Hread. cbv zeta. intros Hok Hidx.
  enter_handler Hacc.
  fold (commandOf req) (callerOf req).
  rewrite (read_not_send _ Hread), Hread.
  rewrite run_bind, run_call. cbn [fst snd].
  destruct (store.ListMessages (a_store w) (callerOf req))
    as [[messages err] s'].
  cbn [fst snd] in *. subst err.
  apply Z.ltb_lt in Hidx. rewrite Hidx. reflexivity.
Qed.

(** The read path inside the range: the message at the index is fetched by
    its identifier and rendered. *)
Lemma read_index_below_length
  (r : HTTPRequest) (req : models.Request) (w : World)
  (m message : store.Message) :
  accepted r req ->
  HasPrefix (commandOf req) "Прочитай" = true ->
  let listed := fst (store.ListMessages (a_store w) (callerOf req)) in
  let s' := snd (store.ListMessages (a_store w) (callerOf req)) in
  snd listed = None ->
  index (fst listed) (ParseReadCommand (commandOf req)) = Some m ->
  fst (store.GetMessage s' (store.ID m)) = (Some message, None) ->
  fst (runState (webhook r) w) =
  replyWith ("Сообщение от " ++ store.Sender message
             ++ ", отправлено " ++ time_String (store.Time_ message)
             ++ ": " ++ store.Payload message).
Proof.
  intros Hacc Hread. cbv zeta. intros Hok Hidx Hget.
  enter_handler Hacc.
  fold (commandOf req) (callerOf req).
  rewrite (read_not_send _ Hread), Hread.
  rewrite run_bind, run_call. cbn [fst snd].
  destruct (store.ListMessages (a_store w) (callerOf req))
    as [[messages err] s'].
  cbn [fst snd] in *. subst err.
  destruct (Z.ltb_spec (len messages) (ParseReadCommand (commandOf req)))
    as [Hlt|_].
  - exfalso. unfold index in Hidx.
    destruct (ParseReadCommand (commandOf req) <? 0); [discriminate|].
    assert (Hnone : nth_error messages
                      (Z.to_nat (ParseReadCommand (commandOf req))) = None).
    { apply nth_error_None. unfold len in Hlt. lia. }
    congruence.
  - rewrite Hidx. rewrite run_bind, run_call. cbn [fst snd after a_store].
    destruct (store.GetMessage s' (store.ID m)) as [got s''].
    cbn [fst] in Hget. subst got. reflexivity.
Qed.

(** C2 (amended). A first-turn request on the default path with an invalid
    timezone: the handler first calls [ListMessages], once, and that is its
    only store call; when the listing fails the status is 500, otherwise the
    status is 400; no reply body is written in either case. *)
Theorem invalid_timezone_rejected_after_listing
  (r : HTTPRequest) (req : models.Request) (w : World) (e : errval) :
  accepted r req ->
  matchesKeyword (commandOf req) = false ->
  models.New (models.Session_ req) = true ->
  LoadLocation (models.Timezone req) = inr e ->
  let listed := fst (store.ListMessages (a_store w) (callerOf req)) in
  let run := runState (webhook r) w in
  trace (snd run) = (trace w ++ [CallListMessages (callerOf req)])%list /\
  fst run =
    match snd listed with
    | Some _ => Responded StatusInternalServerError None
    | None => Responded StatusBadRequest None
    end.
Proof.
  intros Hacc Hdef Hnew Htz. cbv zeta.
  apply no_keyword in Hdef as (Hs & Hr & Hg).
  enter_handler Hacc.
  fold (commandOf req) (callerOf req).
  rewrite Hs, Hr, Hg, Hnew, Htz.
  rewrite run_bind, run_call. cbn [fst snd].
  destruct (store.ListMessages (a_store w) (callerOf req))
    as [[messages err] s'].
  cbn [fst snd]. destruct err; split; reflexivity.
Qed.

(** C7. First-turn greeting: on the default path with [session.new] set and
    a timezone that loads, whenever the listing succeeds the reply is the
    hour and minute of the current time in that timezone followed by the
    very text the same request gets without the first-turn flag, which is
    the count text of the listing. *)
Theorem first_turn_greeting_precedes_count
  (r r0 : HTTPRequest) (req : models.Request) (w : World) (tz : Location) :
  accepted r req ->
  accepted r0 (withSession false (models.Timezone req) req) ->
  matchesKeyword (commandOf req) = false ->
  models.New (models.Session_ req) = true ->
  LoadLocation (models.Timezone req) = inl tz ->
  let listed := fst (store.ListMessages (a_store w) (callerOf req)) in
  snd listed = None ->
  let clock := time_Clock (time_In (now w) tz) in
  let text := countText (fst listed) in
  fst (runState (webhook r0) w) = replyWith text /\
  fst (runState (webhook r) w) =
    replyWith (greeting (fst (fst clock)) (snd (fst clock)) text).
Proof.
  intros Hacc Hacc0 Hdef Hnew Htz. cbv zeta. intros Hok.
  apply no_keyword in Hdef as (Hs & Hr & Hg).
  split.
  - enter_handler Hacc0.
    cbn [withSession models.Request_ models.Session_ models.User_
         models.New models.Command models.UserID].
    fold (commandOf req) (callerOf req).
    rewrite Hs, Hr, Hg.
    rewrite run_bind, run_call. cbn [fst snd].
    destruct (store.ListMessages (a_store w) (callerOf req))
      as [[messages err] s'].
    cbn [fst snd] in *. subst err. reflexivity.
  - enter_handler Hacc.
    fold (commandOf req) (callerOf req).
    rewrite Hs, Hr, Hg, Hnew, Htz.
    rewrite run_bind, run_call. cbn [fst snd].
    destruct (store.ListMessages (a_store w) (callerOf req))
      as [[messages err] s'].
    cbn [fst snd] in *. subst err.
    rewrite run_bind.
    change (fst (runState time_Now
                   (after w s' [CallListMessages (callerOf req)])))
      with (now w).
    destruct (time_Clock (time_In (now w) tz)) as [[hour minute] second].
    reflexivity.
Qed.

(** One step of a run: split a sequence, run a store call, or take the
    cases of the value a branch looks at. *)
Ltac run_step :=
  match goal with
  | |- context [runState (bind _ _) _] => rewrite run_bind
  | |- context [runState (call _ _) _] => rewrite run_call; cbn [fst snd]
  | |- context [match ?x with _ => _ end] =>
      lazymatch x with
      | context [runState] => fail
      | _ => destruct x eqn:?
      end
  end.

(** C9. The keyword branches look at neither the first-turn flag nor the
    timezone: for a command that begins with the send, read or register
    keyword, the run is the same whatever the flag and the timezone string
    are, its status is never 400, and its reply text never begins with the
    greeting. *)
Theorem keyword_paths_ignore_session
  (r r' : HTTPRequest) (req : models.Request) (w : World)
  (new : bool) (timezone : string) :
  accepted r req ->
  accepted r' (withSession new timezone req) ->
  matchesKeyword (commandOf req) = true ->
  let run := runState (webhook r') w in
  run = runState (webhook r) w /\
  statusOf (fst run) <> Some StatusBadRequest /\
  (forall text, textOf (fst run) = Some text ->
                HasPrefix text "Точное время" = false).
Proof.
  intros Hacc Hacc' Hkey. cbv zeta.
  assert (Hsame : runState (webhook r') w = runState (webhook r) w).
  { enter_handler Hacc'.
    destruct Hacc as (Hmethod' & Hdecode' & Htype').
    unfold_webhook.
    rewrite Hmethod', Hdecode', Htype'.
    unfold MethodPost. rewrite !String.eqb_refl.
    cbv beta iota delta [negb].
    cbn [withSession models.Request_ models.Session_ models.User_
         models.New models.Command models.UserID].
    unfold matchesKeyword in Hkey. fold (commandOf req).
    destruct (HasPrefix (commandOf req) "Отправь"); [reflexivity|].
    destruct (HasPrefix (commandOf req) "Прочитай"); [reflexivity|].
    destruct (HasPrefix (commandOf req) "Зарегистрируй");
      [reflexivity | discriminate]. }
  split; [exact Hsame|]. rewrite Hsame. clear Hsame Hacc' r'.
  enter_handler Hacc.
  unfold matchesKeyword in Hkey. fold (commandOf req) (callerOf req).
  destruct (HasPrefix (commandOf req) "Отправь").
  { repeat run_step; cbn; (split; [discriminate|]); intros text Htext;
      inversion Htext; reflexivity. }
  destruct (HasPrefix (commandOf req) "Прочитай").
  { repeat run_step; cbn; (split; [discriminate|]); intros text Htext;
      inversion Htext; reflexivity. }
  destruct (HasPrefix (commandOf req) "Зарегистрируй"); [|discriminate].
  repeat run_step; cbn; (split; [discriminate|]); intros text Htext;
    inversion Htext; try reflexivity.
Qed.

(** ** The worker loop *)

(** A firing of the ticker on a batch that is not empty: one call of
    [SaveMessages] with the batch; the batch is kept when the call fails and
    dropped when it succeeds. *)
Lemma run_tick (messages : list store.Message) (w : World) :
  messages <> [] ->
  runState (flushMessages_pass messages TickerC) w =
  (match fst (store.SaveMessages (a_store w) messages) with
   | Some _ => messages
   | None => []
   end,
   after w (snd (store.SaveMessages (a_store w) messages))
     [CallSaveMessages messages]).
Proof.
  intros Hne. unfold flushMessages_pass.
  destruct messages as [|m rest]; [contradiction|].
  change (len (m :: rest) =? 0) with false. cbv iota.
  rewrite run_bind, run_call. cbn [fst snd].
  destruct (store.SaveMessages (a_store w) (m :: rest)) as [err s'].
  cbn [fst snd]. destruct err; reflexivity.
Qed.

(** The loop over two stretches of passes is the loop over the first, then
    the loop over the second from where the first ended. *)
Lemma run_loop_app (xs ys : list SelectCase) (messages : list store.Message)
  (w : World) :
  runState (flushMessages_loop (xs ++ ys) messages) w =
  runState (flushMessages_loop ys
              (fst (runState (flushMessages_loop xs messages) w)))
           (snd (runState (flushMessages_loop xs messages) w)).
Proof.
  revert messages w. induction xs as [|c xs IH]; intros messages w.
  - reflexivity.
  - cbn [app flushMessages_loop]. rewrite !run_bind. apply IH.
Qed.

(** Receiving messages appends them in order and touches nothing else. *)
Lemma run_loop_recv (msgs messages : list store.Message) (w : World) :
  runState (flushMessages_loop (map RecvMsg msgs) messages) w =
  ((messages ++ msgs)%list, w).
Proof.
  revert messages. induction msgs as [|m msgs IH]; intros messages.
  - cbn. rewrite app_nil_r. reflexivity.
  - cbn [map flushMessages_loop]. rewrite run_bind.
    cbn [flushMessages_pass]. change (runState (ret ?x) w) with (x, w).
    cbn [fst snd]. rewrite IH, <- app_assoc. reflexivity.
Qed.

(** C3. A failed flush keeps the batch: when the bulk write of a batch
    fails, the batch after the firing is the batch before it, and after any
    further messages arrive the next firing calls [SaveMessages] with the
    same messages followed by the new ones. *)
Theorem failed_flush_keeps_batch
  (w : World) (batch more : list store.Message) (e : errval) :
  batch <> [] ->
  fst (store.SaveMessages (a_store w) batch) = Some e ->
  let first := runState (flushMessages_pass batch TickerC) w in
  let next :=
    runState (flushMessages_loop (map RecvMsg more ++ [TickerC]) (fst first))
             (snd first) in
  fst first = batch /\
  trace (snd first) = (trace w ++ [CallSaveMessages batch])%list /\
  trace (snd next) =
    (trace w ++ [CallSaveMessages batch;
                 CallSaveMessages (batch ++ more)])%list.
Proof.
  intros Hne Hfail. cbv zeta.
  rewrite (run_tick batch w Hne), Hfail. cbn [fst snd].
  split; [reflexivity|]. split; [reflexivity|].
  rewrite run_loop_app, run_loop_recv. cbn [fst snd flushMessages_loop].
  rewrite run_bind, run_tick.
  - cbn. rewrite <- app_assoc. reflexivity.
  - destruct batch; [contradiction | discriminate].
Qed.

(** C4. Messages received between two firings are written at once: after
    the messages [msgs] (at least one) arrive on top of what the previous
    firing left pending, the next firing makes exactly one [SaveMessages]
    call, whose argument is the pending messages followed by all of [msgs]
    in arrival order (exactly [msgs] when nothing was pending), and the
    batch is empty afterwards when that call succeeds. *)
Theorem firing_writes_whole_batch_once
  (w : World) (pending msgs : list store.Message) :
  msgs <> [] ->
  let run :=
    runState (flushMessages_loop (map RecvMsg msgs ++ [TickerC]) pending) w in
  trace (snd run) = (trace w ++ [CallSaveMessages (pending ++ msgs)])%list /\
  (pending = [] ->
   trace (snd run) = (trace w ++ [CallSaveMessages msgs])%list) /\
  (fst (store.SaveMessages (a_store w) (pending ++ msgs)) = None ->
   fst run = []).
Proof.
  intros Hne. cbv zeta.
  assert (Hall : (pending ++ msgs)%list <> []).
  { intros H. apply app_eq_nil in H as [_ H]. contradiction. }
  rewrite run_loop_app, run_loop_recv. cbn [fst snd flushMessages_loop].
  rewrite run_bind, (run_tick _ w Hall). cbn [fst snd].
  split; [reflexivity|]. split.
  - intros ->. reflexivity.
  - intros ->. reflexivity.
Qed.

(** C8. A firing on an empty batch writes nothing: the pass leaves the batch
    empty and the world (store and trace) as it was, and so does any number
    of firings from the start of the loop. *)
Theorem empty_batch_firing_writes_nothing (w : World) (n : nat) :
  runState (flushMessages_pass [] TickerC) w = ([], w) /\
  runState (flushMessages (repeat TickerC n)) w = ([], w).
Proof.
  split; [reflexivity|].
  unfold flushMessages. induction n as [|n IH]; [reflexivity|].
  cbn [repeat flushMessages_loop]. rewrite run_bind. exact IH.
Qed.

(** What one pass adds to the trace: nothing, or one [SaveMessages] call
    with the batch the pass started from. *)
Lemma run_pass_trace (messages : list store.Message) (c : SelectCase)
  (w : World) :
  trace (snd (runState (flushMessages_pass messages c) w)) = trace w \/
  (c = TickerC /\
   trace (snd (runState (flushMessages_pass messages c) w)) =
     (trace w ++ [CallSaveMessages messages])%list).
Proof.
  destruct c as [msg|].
  - left. reflexivity.
  - destruct messages as [|m rest].
    + left. reflexivity.
    + right. split; [reflexivity|]. rewrite run_tick by discriminate.
      reflexivity.
Qed.

(** Every event of the worker loop is a [SaveMessages] call made at some
    firing with the whole batch the loop held at that firing. *)
Lemma worker_trace (cases : list SelectCase) :
  forall (pending : list store.Message) (w : World),
  exists evs,
    trace (snd (runState (flushMessages_loop cases pending) w)) =
      (trace w ++ evs)%list /\
    Forall (fun ev => exists pre post,
              cases = (pre ++ TickerC :: post)%list /\
              ev = CallSaveMessages
                     (fst (runState (flushMessages_loop pre pending) w)))
           evs.
Proof.
  induction cases as [|c rest IH]; intros pending w.
  - exists []. split; [symmetry; apply app_nil_r | constructor].
  - cbn [flushMessages_loop]. rewrite run_bind.
    set (p := runState (flushMessages_pass pending c) w).
    destruct (IH (fst p) (snd p)) as (evs & Htrace & Hall).
    assert (Hshift : Forall (fun ev => exists pre post,
              (c :: rest) = (pre ++ TickerC :: post)%list /\
              ev = CallSaveMessages
                     (fst (runState (flushMessages_loop pre pending) w)))
           evs).
    { eapply Forall_impl; [|exact Hall].
      intros ev (pre & post & Hsplit & Hev).
      exists (c :: pre), post. split; [rewrite Hsplit; reflexivity|].
      cbn [flushMessages_loop]. rewrite run_bind. exact Hev. }
    destruct (run_pass_trace pending c w) as [Hsame | [Htick Hsave]];
      fold p in Hsame || fold p in Hsave.
    + exists evs. split; [rewrite Htrace, Hsame; reflexivity | exact Hshift].
    + exists (CallSaveMessages pending :: evs). split.
      * rewrite Htrace, Hsave, <- app_assoc. reflexivity.
      * constructor; [|exact Hshift].
        exists [], rest. split; [rewrite Htick; reflexivity | reflexivity].
Qed.

(** Reading the clock gives the world's reading and changes nothing. *)
Lemma run_time_Now (w : World) : runState time_Now w = (now w, w).
Proof. reflexivity. Qed.

(** The handler never calls [SaveMessages]. *)
Lemma webhook_never_saves (r : HTTPRequest) (w : World) :
  exists evs,
    trace (snd (runState (webhook r) w)) = (trace w ++ evs)%list /\
    forallb (fun ev => negb (isSave ev)) evs = true.
Proof.
  unfold_webhook.
  repeat first [ rewrite run_time_Now; cbn [fst snd] | run_step ];
    first [ exists []; split; [symmetry; apply app_nil_r | reflexivity]
          | eexists; split;
            [ cbn; rewrite <- ?app_assoc; reflexivity | reflexivity ] ].
Qed.

(** C10. No durable write on the request path: whatever the request and the
    store, the events of a [webhook] run contain no [SaveMessages] call;
    the worker loop is the one caller, and each of its calls is made at a
    firing of the ticker with the whole batch accumulated up to that
    firing. *)
Theorem only_worker_saves_whole_batch :
  (forall (r : HTTPRequest) (w : World),
   exists evs,
     trace (snd (runState (webhook r) w)) = (trace w ++ evs)%list /\
     forallb (fun ev => negb (isSave ev)) evs = true) /\
  (forall (cases : list SelectCase) (w : World),
   exists evs,
     trace (snd (runState (flushMessages cases) w)) = (trace w ++ evs)%list /\
     Forall (fun ev => exists pre post,
               cases = (pre ++ TickerC :: post)%list /\
               ev = CallSaveMessages (fst (runState (flushMessages pre) w)))
            evs).
Proof.
  split.
  - exact webhook_never_saves.
  - intros cases w. exact (worker_trace cases [] w).
Qed.

(** ** The gates at the head of the handler *)

(** X1. A request whose method is not POST is answered 405 with no body,
    whatever its body holds, and the world is left as it was: no store call
    and no send. *)
Theorem method_gate_rejects_without_effect (r : HTTPRequest) (w : World) :
  Method r <> MethodPost ->
  runState (webhook r) w = (Responded StatusMethodNotAllowed None, w).
Proof.
  intros Hne. unfold_webhook.
  destruct (String.eqb_spec (Method r) MethodPost); [contradiction|].
  reflexivity.
Qed.

(** X2. A POST whose body does not decode is answered 500 with no body and
    without touching the world. *)
Theorem decode_gate_rejects_without_effect
  (r : HTTPRequest) (w : World) (e : errval) :
  Method r = MethodPost ->
  json_Decode (Body r) = inr e ->
  runState (webhook r) w = (Responded StatusInternalServerError None, w).
Proof.
  intros Hm Hd. unfold_webhook. rewrite Hm, Hd.
  unfold MethodPost. rewrite String.eqb_refl. reflexivity.
Qed.

(** X3. A POST of another type than the supported one is answered 422 with
    no body and without touching the world, whatever the command, the
    session and the timezone are. *)
Theorem type_gate_rejects_without_effect
  (r : HTTPRequest) (req : models.Request) (w : World) :
  Method r = MethodPost ->
  json_Decode (Body r) = inl req ->
  models.Type_ (models.Request_ req) <> models.TypeSimpleUtterance ->
  runState (webhook r) w = (Responded StatusUnprocessableEntity None, w).
Proof.
  intros Hm Hd Ht. unfold_webhook. rewrite Hm, Hd.
  unfold MethodPost. rewrite String.eqb_refl. cbv beta iota delta [negb].
  destruct (String.eqb_spec (models.Type_ (models.Request_ req))
              models.TypeSimpleUtterance); [contradiction|].
  reflexivity.
Qed.

(** A request either passes the three gates or is turned away by one of
    them with the world untouched. *)
Lemma webhook_gates (r : HTTPRequest) (w : World) :
  (exists req, accepted r req) \/
  (snd (runState (webhook r) w) = w /\
   (fst (runState (webhook r) w) = Responded StatusMethodNotAllowed None \/
    fst (runState (webhook r) w) = Responded StatusInternalServerError None \/
    fst (runState (webhook r) w) = Responded StatusUnprocessableEntity None)).
Proof.
  unfold_webhook.
  destruct (String.eqb_spec (Method r) MethodPost) as [Hm|Hm].
  - destruct (json_Decode (Body r)) as [req|e] eqn:Hd.
    + destruct (String.eqb_spec (models.Type_ (models.Request_ req))
                  models.TypeSimpleUtterance) as [Ht|Ht].
      * left. exists req. repeat split; assumption.
      * right. split; [reflexivity | right; right; reflexivity].
    + right. split; [reflexivity | right; left; reflexivity].
  - right. split; [reflexivity | left; reflexivity].
Qed.

(** All the steps of a run, the clock included. *)
Ltac run_all :=
  repeat first [ rewrite run_time_Now; cbn [fst snd] | run_step ].

(** X4. Whatever the request and the store, an outcome that is not a panic
    is well formed: a reply body comes only with status 200 and version
    1.0, and a response without body has status 400, 405, 422 or 500. *)
Theorem webhook_outcome_well_formed (r : HTTPRequest) (w : World) :
  wellFormed (fst (runState (webhook r) w)).
Proof.
  unfold_webhook. run_all; cbn;
    first [ exact I | split; reflexivity | left; reflexivity
          | right; left; reflexivity | right; right; left; reflexivity
          | right; right; right; reflexivity ].
Qed.

(** ** The [switch] *)

(** X5. No command begins with two of the three keywords, so at most one
    case of the [switch] can match and the order of the cases decides
    nothing. *)
Theorem keywords_exclude_one_another (c : string) :
  HasPrefix c "Отправь" && HasPrefix c "Прочитай" = false /\
  HasPrefix c "Отправь" && HasPrefix c "Зарегистрируй" = false /\
  HasPrefix c "Прочитай" && HasPrefix c "Зарегистрируй" = false.
Proof.
  repeat split.
  - destruct (HasPrefix c "Прочитай") eqn:H;
      [rewrite (read_not_send _ H); reflexivity | apply andb_false_r].
  - destruct (HasPrefix c "Зарегистрируй") eqn:H;
      [rewrite (register_not_send _ H); reflexivity | apply andb_false_r].
  - destruct (HasPrefix c "Зарегистрируй") eqn:H;
      [rewrite (register_not_read _ H); reflexivity | apply andb_false_r].
Qed.

(** Indexing fails exactly below zero and from the length on. *)
Lemma index_none {A : Type} (xs : list A) (i : Z) :
  index xs i = None -> i < 0 \/ len xs <= i.
Proof.
  unfold index, len. destruct (Z.ltb_spec i 0) as [|Hge]; [auto|].
  intros H. apply nth_error_None in H. right. lia.
Qed.

Lemma index_some {A : Type} (xs : list A) (i : Z) (x : A) :
  index xs i = Some x -> 0 <= i < len xs.
Proof.
  unfold index, len. destruct (Z.ltb_spec i 0) as [|Hge]; [discriminate|].
  intros H. assert (Hsome : nth_error xs (Z.to_nat i) <> None) by congruence.
  apply nth_error_Some in Hsome. lia.
Qed.

(** ** The read branch *)

(** Into the read branch, up to the result of the listing. *)
Ltac enter_read req Hacc Hread :=
  enter_handler Hacc;
  fold (commandOf req) (callerOf req);
  rewrite (read_not_send _ Hread), Hread;
  rewrite run_bind, run_call; cbn [fst snd].

(** X6. A read whose listing fails is answered 500 with no body; the
    listing is the only store call and [GetMessage] is not reached. *)
Theorem read_listing_failure_is_internal_error
  (r : HTTPRequest) (req : models.Request) (w : World) :
  accepted r req ->
  HasPrefix (commandOf req) "Прочитай" = true ->
  let listed := store.ListMessages (a_store w) (callerOf req) in
  snd (fst listed) <> None ->
  runState (webhook r) w =
  (Responded StatusInternalServerError None,
   after w (snd listed) [CallListMessages (callerOf req)]).
Proof.
  intros Hacc Hread. cbv zeta. intros Herr.
  enter_read req Hacc Hread.
  destruct (store.ListMessages (a_store w) (callerOf req))
    as [[messages err] s'].
  cbn [fst snd] in *. destruct err; [reflexivity | congruence].
Qed.

(** X7. A read above the length of the listing is answered with the fixed
    no-such-message text; the listing is the only store call. *)
Theorem read_above_length_is_no_such_message
  (r : HTTPRequest) (req : models.Request) (w : World) :
  accepted r req ->
  HasPrefix (commandOf req) "Прочитай" = true ->
  let listed := store.ListMessages (a_store w) (callerOf req) in
  snd (fst listed) = None ->
  len (fst (fst listed)) < ParseReadCommand (commandOf req) ->
  runState (webhook r) w =
  (replyWith "Такого сообщения не существует.",
   after w (snd listed) [CallListMessages (callerOf req)]).
Proof.
  intros Hacc Hread. cbv zeta. intros Hok Hidx.
  enter_read req Hacc Hread.
  destruct (store.ListMessages (a_store w) (callerOf req))
    as [[messages err] s'].
  cbn [fst snd] in *. subst err.
  apply Z.ltb_lt in Hidx. rewrite Hidx. reflexivity.
Qed.

(** X8. A read inside the listing fetches the message by the identifier of
    the listed entry, after the listing and on the store the listing left;
    a failing fetch is answered 500, a fetched message is rendered with its
    sender, time and payload, and a nil message with a nil error makes the
    handler panic. *)
Theorem read_in_range_fetches_listed_identifier
  (r : HTTPRequest) (req : models.Request) (w : World) (m : store.Message) :
  accepted r req ->
  HasPrefix (commandOf req) "Прочитай" = true ->
  let listed := store.ListMessages (a_store w) (callerOf req) in
  snd (fst listed) = None ->
  index (fst (fst listed)) (ParseReadCommand (commandOf req)) = Some m ->
  let got := store.GetMessage (snd listed) (store.ID m) in
  snd (runState (webhook r) w) =
    after w (snd got)
      [CallListMessages (callerOf req); CallGetMessage (store.ID m)] /\
  fst (runState (webhook r) w) =
    match fst got with
    | (_, Some _) => Responded StatusInternalServerError None
    | (None, None) => Panicked
    | (Some message, None) =>
        replyWith ("Сообщение от " ++ store.Sender message
                   ++ ", отправлено " ++ time_String (store.Time_ message)
                   ++ ": " ++ store.Payload message)
    end.
Proof.
  intros Hacc Hread. cbv zeta. intros Hok Hidx.
  enter_read req Hacc Hread.
  destruct (store.ListMessages (a_store w) (callerOf req))
    as [[messages err] s'].
  cbn [fst snd] in *. subst err.
  pose proof (index_some _ _ _ Hidx) as Hrange.
  destruct (Z.ltb_spec (len messages) (ParseReadCommand (commandOf req)))
    as [Hlt|_]; [lia|].
  rewrite Hidx. rewrite run_bind, run_call. cbn [fst snd after a_store].
  destruct (store.GetMessage s' (store.ID m)) as [[message err] s''].
  cbn [fst snd]. unfold after. cbn [trace now a_store].
  rewrite <- app_assoc.
  destruct err, message; split; reflexivity.
Qed.

(** X9. A read with a negative index passes the length test, indexes the
    listing below zero and panics, after the one listing call. *)
Theorem read_negative_index_panics
  (r : HTTPRequest) (req : models.Request) (w : World) :
  accepted r req ->
  HasPrefix (commandOf req) "Прочитай" = true ->
  let listed := store.ListMessages (a_store w) (callerOf req) in
  snd (fst listed) = None ->
  ParseReadCommand (commandOf req) < 0 ->
  runState (webhook r) w =
  (Panicked, after w (snd listed) [CallListMessages (callerOf req)]).
Proof.
  intros Hacc Hread. cbv zeta. intros Hok Hneg.
  enter_read req Hacc Hread.
  destruct (store.ListMessages (a_store w) (callerOf req))
    as [[messages err] s'].
  cbn [fst snd] in *. subst err.
  destruct (Z.ltb_spec (len messages) (ParseReadCommand (commandOf req)))
    as [Hlt|_]; [unfold len in Hlt; lia|].
  unfold index. apply Z.ltb_lt in Hneg. rewrite Hneg. reflexivity.
Qed.

(** X10. The handler panics only in the read branch, after a listing that
    succeeded, and only for one of three reasons: the index is negative,
    the index equals the length of the listing, or the fetch returned a nil
    message with a nil error. *)
Theorem webhook_panics_only_on_read (r : HTTPRequest) (w : World) :
  fst (runState (webhook r) w) = Panicked ->
  exists req,
    accepted r req /\
    HasPrefix (commandOf req) "Прочитай" = true /\
    let listed := store.ListMessages (a_store w) (callerOf req) in
    let messageIndex := ParseReadCommand (commandOf req) in
    snd (fst listed) = None /\
    match index (fst (fst listed)) messageIndex with
    | None => messageIndex < 0 \/ messageIndex = len (fst (fst listed))
    | Some m =>
        fst (store.GetMessage (snd listed) (store.ID m)) = (None, None)
    end.
Proof.
  destruct (webhook_gates r w) as [[req Hacc] | [_ Hout]].
  2:{ intros H. rewrite H in Hout.
      destruct Hout as [Hout | [Hout | Hout]]; discriminate Hout. }
  pose proof Hacc as Hkeep. enter_handler Hacc.
  fold (commandOf req) (callerOf req).
  destruct (HasPrefix (commandOf req) "Отправь") eqn:Hsend.
  { run_all; cbn; intros H; discriminate H. }
  destruct (HasPrefix (commandOf req) "Прочитай") eqn:Hread.
  2:{ run_all; cbn; intros H; discriminate H. }
  intros Hpanic. exists req. split; [exact Hkeep|]. split; [exact Hread|].
  cbv zeta. revert Hpanic.
  rewrite run_bind, run_call. cbn [fst snd].
  destruct (store.ListMessages (a_store w) (callerOf req))
    as [[messages err] s'].
  cbn [fst snd]. destruct err; [intros H; discriminate H|].
  destruct (Z.ltb_spec (len messages) (ParseReadCommand (commandOf req)))
    as [Hlt|Hge]; [intros H; discriminate H|].
  destruct (index messages (ParseReadCommand (commandOf req)))
    as [m|] eqn:Hidx.
  - rewrite run_bind, run_call. cbn [fst snd after a_store].
    destruct (store.GetMessage s' (store.ID m)) as [[message err] s''].
    cbn [fst snd].
    destruct err; [intros H; discriminate H|].
    destruct message; [intros H; discriminate H|].
    intros _. split; reflexivity.
  - intros _. split; [reflexivity|].
    destruct (index_none _ _ Hidx) as [Hneg|Hhigh]; [left; exact Hneg|].
    right. lia.
Qed.

(** ** The default branch *)

(** Into the default branch, up to the result of the listing. *)
Ltac enter_default req Hacc Hdef :=
  let Hs := fresh "Hs" in
  let Hr := fresh "Hr" in
  let Hg := fresh "Hg" in
  apply no_keyword in Hdef as (Hs & Hr & Hg);
  enter_handler Hacc;
  fold (commandOf req) (callerOf req);
  rewrite Hs, Hr, Hg;
  rewrite run_bind, run_call; cbn [fst snd].

(** X11. The default branch makes exactly one store call, the listing for
    the caller, in every outcome; and a failing listing is answered 500
    with no body whatever the first-turn flag and the timezone are, also
    when the timezone would not load. *)
Theorem default_path_lists_once
  (r : HTTPRequest) (req : models.Request) (w : World) :
  accepted r req ->
  matchesKeyword (commandOf req) = false ->
  let listed := store.ListMessages (a_store w) (callerOf req) in
  snd (runState (webhook r) w) =
    after w (snd listed) [CallListMessages (callerOf req)] /\
  (snd (fst listed) <> None ->
   fst (runState (webhook r) w) = Responded StatusInternalServerError None).
Proof.
  intros Hacc Hdef. cbv zeta.
  enter_default req Hacc Hdef.
  destruct (store.ListMessages (a_store w) (callerOf req))
    as [[messages err] s'].
  cbn [fst snd]. destruct err as [e|].
  - split; [reflexivity | intros _; reflexivity].
  - split; [|congruence].
    destruct (models.New (models.Session_ req)); [|reflexivity].
    destruct (LoadLocation (models.Timezone req)); [|reflexivity].
    rewrite run_bind, run_time_Now. cbn [fst snd].
    destruct (time_Clock _) as [[hour minute] second]. reflexivity.
Qed.

(** X12. On a later turn the timezone is not looked at: when the listing
    succeeds the reply is the count text with status 200, whether or not
    the timezone of the request loads. *)
Theorem later_turn_ignores_timezone
  (r : HTTPRequest) (req : models.Request) (w : World) :
  accepted r req ->
  matchesKeyword (commandOf req) = false ->
  models.New (models.Session_ req) = false ->
  let listed := store.ListMessages (a_store w) (callerOf req) in
  snd (fst listed) = None ->
  fst (runState (webhook r) w) = replyWith (countText (fst (fst listed))).
Proof.
  intros Hacc Hdef Hnew. cbv zeta. intros Hok.
  enter_default req Hacc Hdef.
  destruct (store.ListMessages (a_store w) (callerOf req))
    as [[messages err] s'].
  cbn [fst snd] in *. subst err. rewrite Hnew. reflexivity.
Qed.



(** ** The register branch *)

(** X14. The register branch makes exactly one store call, [RegisterUser]
    with the caller's identifier and the parsed name, and sends nothing,
    whether the registration succeeds, conflicts or fails. *)
Theorem register_calls_store_once
  (r : HTTPRequest) (req : models.Request) (w : World) :
  accepted r req ->
  HasPrefix (commandOf req) "Зарегистрируй" = true ->
  let username := ParseRegisterCommand (commandOf req) in
  snd (runState (webhook r) w) =
    after w (snd (store.RegisterUser (a_store w) (callerOf req) username))
      [CallRegisterUser (callerOf req) username].
Proof.
  intros Hacc Hreg. cbv zeta.
  enter_handler Hacc.
  fold (commandOf req) (callerOf req).
  rewrite (register_not_send _ Hreg), (register_not_read _ Hreg), Hreg.
  rewrite run_bind, run_call. cbn [fst snd].
  destruct (store.RegisterUser (a_store w) (callerOf req)
              (ParseRegisterCommand (commandOf req))) as [err s'].
  cbn [fst snd]. destruct err as [e|]; [|reflexivity].
  cbn. destruct (errors_is e errConflictValue); reflexivity.
Qed.

(** ** Sends *)

(** X15. Whatever the request and the store, a run sends at most one
    message, and it sends one exactly when it replies with the fixed
    confirmation: no reply other than the confirmation comes with a send,
    and the confirmation never comes without one. *)
Theorem webhook_sends_iff_confirmation (r : HTTPRequest) (w : World) :
  exists evs,
    trace (snd (runState (webhook r) w)) = (trace w ++ evs)%list /\
    ((sent evs = [] /\
      fst (runState (webhook r) w) <>
        replyWith "Сообщение успешно отправлено") \/
     (length (sent evs) = 1%nat /\
      fst (runState (webhook r) w) =
        replyWith "Сообщение успешно отправлено")).
Proof.
  unfold_webhook. run_all;
    (eexists; split;
     [ cbn; rewrite <- ?app_assoc;
       first [ reflexivity | symmetry; apply app_nil_r ]
     | first [ right; split; reflexivity
             | left; split; [reflexivity | cbn; intros H; discriminate H] ] ]).
Qed.

(** ** The table of [TestWebhook] *)

(** X16. The six rows of the test table: GET, PUT and DELETE are answered
    405, a POST with an empty body 500, a POST of an unknown type 422, all
    three without touching the world; and with a store that lists one
    message, the POST of a first turn with no timezone and a command that
    is no keyword is answered with the greeting followed by the count 1,
    after exactly one listing call, as the mock expects. *)
Theorem TestWebhook_table_holds
  (w : World) (bodyType bodySuccess : string)
  (reqType reqSuccess : models.Request) (e : errval) (utc : Location)
  (m : store.Message) :
  json_Decode "" = inr e ->
  json_Decode bodyType = inl reqType ->
  models.Type_ (models.Request_ reqType) = "idunno" ->
  json_Decode bodySuccess = inl reqSuccess ->
  models.Type_ (models.Request_ reqSuccess) = "SimpleUtterance" ->
  commandOf reqSuccess = "sudo do something" ->
  models.New (models.Session_ reqSuccess) = true ->
  models.Timezone reqSuccess = "" ->
  LoadLocation "" = inl utc ->
  fst (store.ListMessages (a_store w) (callerOf reqSuccess)) = ([m], None) ->
  let run method body :=
    runState (webhook {| Method := method; Body := body |}) w in
  run "GET" "" = (Responded StatusMethodNotAllowed None, w) /\
  run "PUT" "" = (Responded StatusMethodNotAllowed None, w) /\
  run "DELETE" "" = (Responded StatusMethodNotAllowed None, w) /\
  run "POST" "" = (Responded StatusInternalServerError None, w) /\
  run "POST" bodyType = (Responded StatusUnprocessableEntity None, w) /\
  trace (snd (run "POST" bodySuccess)) =
    (trace w ++ [CallListMessages (callerOf reqSuccess)])%list /\
  exists hour minute,
    fst (run "POST" bodySuccess) =
      replyWith ("Точное время " ++ fmt_d hour ++ " часов, "
                 ++ fmt_d minute ++ " минут. Для вас 1 новых сообщений.").
Proof.
  intros Hempty HbodyT Hidunno HbodyS Htag Hcommand Hnew Hzone Hutc Hlist.
  cbv zeta.
  assert (Hacc : accepted {| Method := "POST"; Body := bodySuccess |}
                   reqSuccess)
    by (repeat split; assumption).
  assert (Hdef : matchesKeyword (commandOf reqSuccess) = false)
    by (rewrite Hcommand; reflexivity).
  split; [reflexivity|]. split; [reflexivity|]. split; [reflexivity|].
  split.
  { unfold_webhook. cbn [Method Body]. rewrite Hempty. reflexivity. }
  split.
  { unfold_webhook. cbn [Method Body]. rewrite HbodyT, Hidunno. reflexivity. }
  split.
  - enter_default reqSuccess Hacc Hdef.
    destruct (store.ListMessages (a_store w) (callerOf reqSuccess))
      as [listed s'].
    cbn [fst snd] in *. subst listed. rewrite Hnew, Hzone, Hutc.
    rewrite run_bind, run_time_Now. cbn [fst snd].
    destruct (time_Clock _) as [[hour minute] second]. reflexivity.
  - exists (fst (fst (time_Clock (time_In (now w) utc)))),
           (snd (fst (time_Clock (time_In (now w) utc)))).
    enter_default reqSuccess Hacc Hdef.
    destruct (store.ListMessages (a_store w) (callerOf reqSuccess))
      as [listed s'].
    cbn [fst snd] in *. subst listed. rewrite Hnew, Hzone, Hutc.
    rewrite run_bind, run_time_Now. cbn [fst snd].
    change (now (after w s' [CallListMessages (callerOf reqSuccess)]))
      with (now w).
    destruct (time_Clock (time_In (now w) utc)) as [[hour minute] second].
    reflexivity.
Qed.

(** ** The worker loop over whole runs *)

(** X17. Nothing is lost and nothing is written twice: after any passes,
    the batches written with success, one after the other, followed by the
    batch still held, are exactly the messages held at the start followed
    by the messages received, in order of arrival. *)
Theorem no_message_lost_or_repeated (cases : list SelectCase) :
  forall (pending : list store.Message) (w : World),
  (concat (savedBatches cases pending w) ++
   fst (runState (flushMessages_loop cases pending) w))%list =
  (pending ++ received cases)%list.
Proof.
  induction cases as [|c rest IH]; intros pending w.
  - cbn. rewrite app_nil_r. reflexivity.
  - cbn [savedBatches flushMessages_loop]. rewrite run_bind.
    rewrite concat_app, <- app_assoc, IH.
    change (received (c :: rest))
      with ((match c with RecvMsg m => [m] | TickerC => [] end)
            ++ received rest)%list.
    rewrite !app_assoc. f_equal.
    destruct c as [msg|].
    + cbn. reflexivity.
    + destruct pending as [|m ms].
      * reflexivity.
      * rewrite run_tick by discriminate.
        change (len (m :: ms) =? 0) with false. cbv iota. cbn [fst].
        destruct (store.SaveMessages (a_store w) (m :: ms)) as [err s'].
        cbn [fst]. destruct err; cbn; rewrite ?app_nil_r; reflexivity.
Qed.

(** X18. The worker loop calls the store only to save, never with an empty
    batch, and at most once for each firing of the ticker; it sends
    nothing. *)
Theorem worker_saves_only_nonempty_batches (cases : list SelectCase) :
  forall (pending : list store.Message) (w : World),
  exists evs,
    trace (snd (runState (flushMessages_loop cases pending) w)) =
      (trace w ++ evs)%list /\
    Forall (fun ev => exists batch,
              batch <> [] /\ ev = CallSaveMessages batch) evs /\
    (length evs <= firings cases)%nat.
Proof.
  induction cases as [|c rest IH]; intros pending w.
  - exists []. split; [symmetry; apply app_nil_r|].
    split; [constructor | apply Nat.le_refl].
  - cbn [flushMessages_loop]. rewrite run_bind.
    set (p := runState (flushMessages_pass pending c) w).
    destruct (IH (fst p) (snd p)) as (evs & Htrace & Hall & Hlen).
    destruct c as [msg|].
    + exists evs. split; [exact Htrace|]. split; [exact Hall | exact Hlen].
    + destruct pending as [|m ms].
      * exists evs. split; [exact Htrace|]. split; [exact Hall|].
        unfold firings in *. cbn. lia.
      * exists (CallSaveMessages (m :: ms) :: evs). split.
        { rewrite Htrace. subst p. rewrite run_tick by discriminate.
          cbn. rewrite <- app_assoc. reflexivity. }
        split.
        { constructor; [|exact Hall].
          exists (m :: ms). split; [discriminate | reflexivity]. }
        unfold firings in *. cbn. lia.
Qed.

(** X19. While every save fails the worker keeps everything: after any
    passes the batch holds all the messages received so far, in order of
    arrival, however many firings have failed in between. *)
Theorem failing_store_accumulates_everything (cases : list SelectCase)
  (pending : list store.Message) (w : World) :
  (forall s msgs, fst (store.SaveMessages s msgs) <> None) ->
  fst (runState (flushMessages_loop cases pending) w) =
  (pending ++ received cases)%list.
Proof.
  intros Hfail. revert pending w.
  induction cases as [|c rest IH]; intros pending w.
  - cbn. rewrite app_nil_r. reflexivity.
  - cbn [flushMessages_loop]. rewrite run_bind, IH.
    change (received (c :: rest))
      with ((match c with RecvMsg m => [m] | TickerC => [] end)
            ++ received rest)%list.
    rewrite app_assoc. f_equal.
    destruct c as [msg|]; [reflexivity|].
    destruct pending as [|m ms]; [reflexivity|].
    rewrite run_tick by discriminate. cbn [fst].
    pose proof (Hfail (a_store w) (m :: ms)) as Hnone.
    destruct (store.SaveMessages (a_store w) (m :: ms)) as [err s'].
    cbn [fst] in *. rewrite app_nil_r.
    destruct err; [reflexivity | congruence].
Qed.

(** X20. A batch written with success is not written again: after a firing
    whose write succeeds, the messages that arrive next are written alone
    by the following firing. *)
Theorem flushed_batch_is_not_written_again
  (w : World) (batch more : list store.Message) :
  batch <> [] ->
  more <> [] ->
  fst (store.SaveMessages (a_store w) batch) = None ->
  trace (snd (runState
                (flushMessages_loop (TickerC :: map RecvMsg more ++ [TickerC])
                                    batch) w)) =
  (trace w ++ [CallSaveMessages batch; CallSaveMessages more])%list.
Proof.
  intros Hbatch Hmore Hok.
  cbn [flushMessages_loop]. rewrite run_bind, (run_tick batch w Hbatch), Hok.
  cbn [fst snd].
  rewrite run_loop_app, run_loop_recv. cbn [fst snd flushMessages_loop app].
  rewrite run_bind, (run_tick more _ Hmore).
  cbn. rewrite <- app_assoc. reflexivity.
Qed.

End Handler.

(** * Concrete runs

    The theorems above at requests served by the in-memory world. *)

Section Runs.
Import demo.

Let utterance (command : string) (first : bool) (timezone : string)
  : models.Request :=
  request "SimpleUtterance" command first timezone.

(** A read of index 0 from an empty listing: index and length are both 0,
    and the handler panics. *)
Lemma read_first_of_empty_listing_panics :
  accepted decode (post "0MПрочитай 0")
    (utterance "Прочитай 0" false "Europe/Moscow") /\
  HasPrefix "Прочитай 0" "Прочитай" = true /\
  fst (serve "0MПрочитай 0" (world [] false)) = Panicked.
Proof.
  split; [repeat split; reflexivity|]. split; [reflexivity|].
  exact (read_index_equal_to_length_panics decode (post "0MПрочитай 0")
           (utterance "Прочитай 0" false "Europe/Moscow") (world [] false)
           ltac:(repeat split; reflexivity) eq_refl eq_refl eq_refl).
Defined.

(** A first turn with a timezone that does not load: the listing is called
    and then the request is rejected with status 400. *)
Lemma invalid_timezone_rejected_after_listing_run :
  accepted decode (post "1Xпривет") (utterance "привет" true "Mars/Phobos") /\
  matchesKeyword "привет" = false /\
  trace (snd (serve "1Xпривет" (world [hello] false))) =
    [CallListMessages "u1"] /\
  fst (serve "1Xпривет" (world [hello] false)) =
    Responded StatusBadRequest None.
Proof.
  split; [repeat split; reflexivity|]. split; [reflexivity|].
  exact (invalid_timezone_rejected_after_listing decode (post "1Xпривет")
           (utterance "привет" true "Mars/Phobos") (world [hello] false)
           (errorsNew "unknown time zone")
           ltac:(repeat split; reflexivity) eq_refl eq_refl eq_refl).
Defined.

(** The same request refutes the rejection before any store call: it is a
    first turn on the default path with a timezone that does not load, and
    the run has called [ListMessages] by the time it answers 400. *)
Lemma invalid_timezone_store_called_before_rejection :
  accepted decode (post "1Xпривет") (utterance "привет" true "Mars/Phobos") /\
  matchesKeyword "привет" = false /\
  LoadLocation "Mars/Phobos" = inr (errorsNew "unknown time zone") /\
  ~ (statusOf (fst (serve "1Xпривет" (world [hello] false))) =
       Some StatusBadRequest /\
     trace (snd (serve "1Xпривет" (world [hello] false))) =
       trace (world [hello] false)).
Proof.
  split; [repeat split; reflexivity|]. split; [reflexivity|].
  split; [reflexivity|].
  intros [_ Htrace]. vm_compute in Htrace. discriminate Htrace.
Qed.

(** A store that is down fails the flush of one message; the message is
    kept and is written again, before the one that arrived later. *)
Lemma failed_flush_keeps_batch_run :
  trace (snd (runState
                (flushMessages_loop
                   [TickerC; RecvMsg (note "u3" "y"); TickerC]
                   [note "u2" "x"])
                (world [] true))) =
  [CallSaveMessages [note "u2" "x"];
   CallSaveMessages [note "u2" "x"; note "u3" "y"]].
Proof.
  exact (proj2 (proj2
    (failed_flush_keeps_batch (world [] true)
       [note "u2" "x"] [note "u3" "y"] storeDown
       ltac:(discriminate) eq_refl))).
Defined.

(** Two messages received from the start, then a firing: one write with
    both, in order, and an empty batch after it. *)
Lemma firing_writes_whole_batch_once_run :
  trace (snd (runState
                (flushMessages
                   [RecvMsg (note "u2" "x"); RecvMsg (note "u3" "y"); TickerC])
                (world [] false))) =
    [CallSaveMessages [note "u2" "x"; note "u3" "y"]] /\
  fst (runState
         (flushMessages
            [RecvMsg (note "u2" "x"); RecvMsg (note "u3" "y"); TickerC])
         (world [] false)) = [].
Proof.
  pose proof (firing_writes_whole_batch_once (world [] false) []
                [note "u2" "x"; note "u3" "y"] ltac:(discriminate))
    as (_ & Hexact & Hclear).
  split; [exact (Hexact eq_refl) | exact (Hclear eq_refl)].
Defined.

(** A send to a known user: one message on the channel and the
    confirmation. *)
Lemma send_enqueues_one_resolved_message_run :
  accepted decode (post "0MОтправь") (utterance "Отправь" false "Europe/Moscow")
  /\ HasPrefix "Отправь" "Отправь" = true /\
  fst (serve "0MОтправь" (world [] false)) =
    replyWith "Сообщение успешно отправлено" /\
  trace (snd (serve "0MОтправь" (world [] false))) =
    [CallFindRecipient "vasya";
     ChanSend {| store.ID := 0; store.Sender := "u1";
                 store.Recepient := "u2"; store.Time_ := (45296, 0);
                 store.Payload := "hello" |}].
Proof.
  split; [repeat split; reflexivity|]. split; [reflexivity|].
  exact (proj1 (send_enqueues_one_resolved_message decode (post "0MОтправь")
                  (utterance "Отправь" false "Europe/Moscow") (world [] false)
                  ltac:(repeat split; reflexivity) eq_refl) eq_refl).
Defined.

(** Registering a name that is taken: the store wraps the conflict error,
    and the reply is the name-taken text with status 200. *)
Lemma register_discriminates_conflict_run :
  accepted decode (post "0MЗарегистрируй")
    (utterance "Зарегистрируй" false "Europe/Moscow") /\
  HasPrefix "Зарегистрируй" "Зарегистрируй" = true /\
  fst (serve "0MЗарегистрируй" (worldWith [("petya", "u9")] [] false)) =
    replyWith "Извините, такое имя уже занято. Попробуйте другое.".
Proof.
  split; [repeat split; reflexivity|]. split; [reflexivity|].
  exact (proj1 (register_discriminates_conflict decode
                  (post "0MЗарегистрируй")
                  (utterance "Зарегистрируй" false "Europe/Moscow")
                  (worldWith [("petya", "u9")] [] false)
                  ltac:(repeat split; reflexivity) eq_refl) eq_refl).
Defined.

(** A first turn in Moscow at 12:34:56 UTC with one message waiting. *)
Lemma first_turn_greeting_precedes_count_run :
  fst (serve "0Mпривет" (world [hello] false)) =
    replyWith "Для вас 1 новых сообщений." /\
  fst (serve "1Mпривет" (world [hello] false)) =
    replyWith "Точное время 15 часов, 34 минут. Для вас 1 новых сообщений.".
Proof.
  exact (first_turn_greeting_precedes_count decode
           (post "1Mпривет") (post "0Mпривет")
           (utterance "привет" true "Europe/Moscow") (world [hello] false)
           10800
           ltac:(repeat split; reflexivity) ltac:(repeat split; reflexivity)
           eq_refl eq_refl eq_refl eq_refl).
Defined.

(** A send on a first turn with a timezone that does not load runs as the
    same send on a later turn. *)
Lemma keyword_paths_ignore_session_run :
  serve "1XОтправь" (world [] false) = serve "0MОтправь" (world [] false) /\
  statusOf (fst (serve "1XОтправь" (world [] false))) <>
    Some StatusBadRequest.
Proof.
  pose proof (keyword_paths_ignore_session decode
                (post "0MОтправь") (post "1XОтправь")
                (utterance "Отправь" false "Europe/Moscow") (world [] false)
                true "Mars/Phobos"
                ltac:(repeat split; reflexivity)
                ltac:(repeat split; reflexivity) eq_refl)
    as (Hsame & Hstatus & _).
  split; [exact Hsame | exact Hstatus].
Defined.

(** ** Runs for the gates, the branches and the loop *)

Lemma method_gate_rejects_without_effect_run :
  runState (webhook decode {| Method := "GET"; Body := "0MОтправь" |})
           (world [hello] false) =
  (Responded StatusMethodNotAllowed None, world [hello] false).
Proof.
  exact (method_gate_rejects_without_effect decode
           {| Method := "GET"; Body := "0MОтправь" |} (world [hello] false)
           ltac:(discriminate)).
Defined.

Lemma decode_gate_rejects_without_effect_run :
  serve "" (world [hello] false) =
  (Responded StatusInternalServerError None, world [hello] false).
Proof.
  exact (decode_gate_rejects_without_effect decode (post "")
           (world [hello] false) (errorsNew "unexpected end of JSON input")
           eq_refl eq_refl).
Defined.

Lemma type_gate_rejects_without_effect_run :
  serve "?MОтправь" (world [hello] false) =
  (Responded StatusUnprocessableEntity None, world [hello] false).
Proof.
  exact (type_gate_rejects_without_effect decode (post "?MОтправь")
           (request "idunno" "Отправь" false "Europe/Moscow")
           (world [hello] false) eq_refl eq_refl ltac:(discriminate)).
Defined.

Lemma read_listing_failure_is_internal_error_run :
  serve "0MПрочитай 0" (world [hello] true) =
  (Responded StatusInternalServerError None,
   {| a_store := a_store (world [hello] true); now := (45296, 0);
      trace := [CallListMessages "u1"] |}).
Proof.
  exact (read_listing_failure_is_internal_error decode (post "0MПрочитай 0")
           (utterance "Прочитай 0" false "Europe/Moscow") (world [hello] true)
           ltac:(repeat split; reflexivity) eq_refl ltac:(discriminate)).
Defined.

Lemma read_above_length_is_no_such_message_run :
  serve "0MПрочитай 2" (world [hello] false) =
  (replyWith "Такого сообщения не существует.",
   {| a_store := a_store (world [hello] false); now := (45296, 0);
      trace := [CallListMessages "u1"] |}).
Proof.
  exact (read_above_length_is_no_such_message decode (post "0MПрочитай 2")
           (utterance "Прочитай 2" false "Europe/Moscow")
           (world [hello] false)
           ltac:(repeat split; reflexivity) eq_refl eq_refl eq_refl).
Defined.

Lemma read_in_range_fetches_listed_identifier_run :
  trace (snd (serve "0MПрочитай 0" (world [hello] false))) =
    [CallListMessages "u1"; CallGetMessage 7] /\
  fst (serve "0MПрочитай 0" (world [hello] false)) =
    replyWith "Сообщение от u2, отправлено 36000: Hello!".
Proof.
  pose proof (read_in_range_fetches_listed_identifier decode
                (post "0MПрочитай 0")
                (utterance "Прочитай 0" false "Europe/Moscow")
                (world [hello] false) hello
                ltac:(repeat split; reflexivity) eq_refl eq_refl eq_refl)
    as [Hworld Hout].
  split; [exact (f_equal trace Hworld) | exact Hout].
Defined.

Lemma read_negative_index_panics_run :
  fst (runState (webhook (P := minusParser) decode (post "0MПрочитай"))
                (world [hello] false)) = Panicked.
Proof.
  exact (f_equal fst
           (read_negative_index_panics (P := minusParser) decode
              (post "0MПрочитай")
              (utterance "Прочитай" false "Europe/Moscow")
              (world [hello] false)
              ltac:(repeat split; reflexivity) eq_refl eq_refl eq_refl)).
Defined.

Lemma webhook_panics_only_on_read_run :
  exists req,
    accepted decode (post "0MПрочитай 0") req /\
    HasPrefix (commandOf req) "Прочитай" = true.
Proof.
  assert (Hpanic : fst (serve "0MПрочитай 0" (world [] false)) = Panicked)
    by reflexivity.
  destruct (webhook_panics_only_on_read decode (post "0MПрочитай 0")
              (world [] false) Hpanic)
    as (req & Hacc & Hread & _).
  exists req. split; assumption.
Defined.

Lemma default_path_lists_once_run :
  snd (serve "1Mпривет" (world [hello] true)) =
    {| a_store := a_store (world [hello] true); now := (45296, 0);
       trace := [CallListMessages "u1"] |} /\
  fst (serve "1Mпривет" (world [hello] true)) =
    Responded StatusInternalServerError None.
Proof.
  pose proof (default_path_lists_once decode (post "1Mпривет")
                (utterance "привет" true "Europe/Moscow")
                (world [hello] true)
                ltac:(repeat split; reflexivity) eq_refl)
    as [Hworld Hout].
  split; [exact Hworld | exact (Hout ltac:(discriminate))].
Defined.

Lemma later_turn_ignores_timezone_run :
  fst (serve "0Xпривет" (world [hello] false)) =
    replyWith "Для вас 1 новых сообщений.".
Proof.
  exact (later_turn_ignores_timezone decode (post "0Xпривет")
           (utterance "привет" false "Mars/Phobos") (world [hello] false)
           ltac:(repeat split; reflexivity) eq_refl eq_refl eq_refl).
Defined.


Lemma register_calls_store_once_run :
  trace (snd (serve "0MЗарегистрируй" (worldWith [("petya", "u9")] [] false)))
  = [CallRegisterUser "u1" "petya"].
Proof.
  exact (f_equal trace
           (register_calls_store_once decode (post "0MЗарегистрируй")
              (utterance "Зарегистрируй" false "Europe/Moscow")
              (worldWith [("petya", "u9")] [] false)
              ltac:(repeat split; reflexivity) eq_refl)).
Defined.

Lemma TestWebhook_table_holds_run :
  runState (webhook decode (post "")) (mock ([hello], None) (None, None)) =
    (Responded StatusInternalServerError None,
     mock ([hello], None) (None, None)) /\
  runState (webhook decode (post "?Edo something"))
           (mock ([hello], None) (None, None)) =
    (Responded StatusUnprocessableEntity None,
     mock ([hello], None) (None, None)) /\
  exists hour minute,
    fst (runState (webhook decode (post "1Esudo do something"))
                  (mock ([hello], None) (None, None))) =
      replyWith ("Точное время " ++ fmt_d hour ++ " часов, "
                 ++ fmt_d minute ++ " минут. Для вас 1 новых сообщений.").
Proof.
  pose proof (TestWebhook_table_holds decode
                (mock ([hello], None) (None, None))
                "?Edo something" "1Esudo do something"
                (request "idunno" "do something" false "")
                (utterance "sudo do something" true "")
                (errorsNew "unexpected end of JSON input") 0 hello
                eq_refl eq_refl eq_refl eq_refl eq_refl eq_refl eq_refl
                eq_refl eq_refl eq_refl)
    as (_ & _ & _ & Hempty & Htype & _ & Hsuccess).
  split; [exact Hempty|]. split; [exact Htype | exact Hsuccess].
Defined.

Lemma failing_store_accumulates_everything_run :
  fst (runState
         (flushMessages
            [RecvMsg (note "u2" "x"); TickerC; RecvMsg (note "u3" "y");
             TickerC; TickerC])
         deadWorld) =
  [note "u2" "x"; note "u3" "y"].
Proof.
  assert (Hdead : forall (s : deadStore) (msgs : list store.Message),
             fst (store.SaveMessages s msgs) <> None)
    by (intros s msgs; discriminate).
  exact (failing_store_accumulates_everything
           [RecvMsg (note "u2" "x"); TickerC; RecvMsg (note "u3" "y");
            TickerC; TickerC]
           [] deadWorld Hdead).
Defined.

Lemma flushed_batch_is_not_written_again_run :
  trace (snd (runState
                (flushMessages_loop
                   [TickerC; RecvMsg (note "u3" "y"); TickerC]
                   [note "u2" "x"])
                (world [] false))) =
  [CallSaveMessages [note "u2" "x"]; CallSaveMessages [note "u3" "y"]].
Proof.
  exact (flushed_batch_is_not_written_again (world [] false)
           [note "u2" "x"] [note "u3" "y"]
           ltac:(discriminate) ltac:(discriminate) eq_refl).
Defined.

End Runs.
